(** * Scorer: a shallow embedding of [deepeval/scorer/scorer.py]

    The class [Scorer] is a collection of class methods.  Each one checks
    its discrete arguments with [assert], promotes a lone string to a
    one-element list, builds a backend (a library object or a model) and
    forwards the arguments to it.

    Conventions of the embedding:
    - a Python [str] is a [string]; a character is a code point below 256;
    - a [Union[str, List[str]]] argument is a value of [str_or_list];
    - an [Optional[str]] argument is an [option string];
    - the numbers the backends return only meet [>] and [max] here, so
      the score type is any type with Python's [>] ([PyOrd]); the integers
      and the IEEE floats of [SpecFloat] are instances;
    - a method is a computation in [Py]: it yields the list of backend
      events it caused, in order, and either a value or the exception it
      raised.  [assert] statements are executed (the interpreter runs
      without [-O]);
    - the backends ([rouge_score], [nltk], [sentence_transformers] and
      the models of [deepeval.models]) are not part of this file of the
      repository: they are variables of the section, total functions of
      their arguments.  A backend being a variable means that its import
      has resolved, so the [try: import ... except: print(...)] guards of
      the source have nothing to do. *)

From Stdlib Require Import String Ascii List ZArith Bool Lia.
From Stdlib Require Import Floats.SpecFloat.
From Stdlib Require Import Permutation.
Import ListNotations.
Local Open Scope string_scope.
Local Open Scope list_scope.
Local Open Scope Z_scope.

(** ** Strings *)

(** [str.isspace] on one character, for code points below 256: the ASCII
    white space 0x09-0x0D, 0x1C-0x1F and 0x20, then NEL 0x85 and NBSP 0xA0. *)
Definition is_space (c : ascii) : bool :=
  let n := nat_of_ascii c in
  ((9 <=? n) && (n <=? 13) || (28 <=? n) && (n <=? 32)
   || (n =? 133) || (n =? 160))%nat.

(** [s.lstrip()] *)
Fixpoint lstrip (s : string) : string :=
  match s with
  | EmptyString => EmptyString
  | String c s' => if is_space c then lstrip s' else s
  end.

(** [s.rstrip()] *)
Fixpoint rstrip (s : string) : string :=
  match s with
  | EmptyString => EmptyString
  | String c s' =>
      match rstrip s' with
      | EmptyString => if is_space c then EmptyString else String c EmptyString
      | r => String c r
      end
  end.

(** [s.strip()]: white space removed at both ends. *)
Definition strip (s : string) : string := rstrip (lstrip s).

(** [x in [a, b, ...]] for strings: [==] against each element in turn. *)
Definition py_in (x : string) (l : list string) : bool :=
  existsb (String.eqb x) l.

(** The same test for an [Optional[str]]: [None] is in no list of strings. *)
Definition py_in_opt (x : option string) (l : list string) : bool :=
  match x with
  | Some s => py_in s l
  | None => false
  end.

(** A [Union[str, List[str]]] argument. *)
Inductive str_or_list : Type :=
| Str (s : string)
| Lst (l : list string).

(** [[x] if isinstance(x, str) else x] *)
Definition promote (x : str_or_list) : list string :=
  match x with
  | Str s => [s]
  | Lst l => l
  end.

(** ** Scores and Python's [max] *)

(** What a score type must offer: [py_gt a b] is [a > b], and [py_zero]
    is what the literal [0] compares as. *)
Class PyOrd (A : Type) : Type := {
  py_gt : A -> A -> bool;
  py_zero : A
}.

(** [>] is a strict partial order.  Nothing more is asked, so that a type
    with a NaN, which is neither above nor below anything, qualifies. *)
Class PyOrdLaws (A : Type) `{PyOrd A} : Prop := {
  py_gt_irrefl : forall x : A, py_gt x x = false;
  py_gt_trans : forall x y z : A,
      py_gt x y = true -> py_gt y z = true -> py_gt x z = true
}.

(** The builtin [max(a, b)]: it keeps [a] unless [b > a]. *)
Definition py_max {A} `{PyOrd A} (a b : A) : A :=
  if py_gt b a then b else a.

(** [a >= 0] in the sense the theorems use: above zero or zero itself. *)
Definition nonneg {A} `{PyOrd A} (a : A) : Prop :=
  py_gt a py_zero = true \/ a = py_zero.

(** [r] is a largest element of [l]: it occurs in [l] and no element of
    [l] is above it. *)
Definition is_max_of {A} `{PyOrd A} (r : A) (l : list A) : Prop :=
  In r l /\ forall s, In s l -> py_gt s r = false.

(** Python integers as scores. *)
#[global] Instance PyOrd_Z : PyOrd Z := {
  py_gt := Z.gtb;
  py_zero := 0
}.

(** IEEE floats as scores: [a > b] is [b < a], false whenever one side
    is NaN; the literal [0] compares as [+0.0]. *)
#[global] Instance PyOrd_float : PyOrd spec_float := {
  py_gt := fun a b => SFltb b a;
  py_zero := S754_zero false
}.

(** ** Exceptions, backend events and the monad of a call *)

Inductive exn : Type :=
| AssertionError (msg : string)
| NotImplementedError
| KeyError (key : string)
| IndexError.

(** An n-gram weight tuple of [sentence_bleu]. *)
Definition weights : Type := Z * Z * Z * Z.

(** The calls a method makes to a backend: the construction of a scorer
    or model, and the requests sent to it. *)
Inductive event : Type :=
| NewRougeScorer (score_types : list string) (use_stemmer : bool)
| RougeScore (target prediction : string)
| WordTokenize (text : string)
| SentenceBleu (references : list (list string)) (hypothesis : list string)
               (w : weights)
| NewCrossEncoderAnswerRelevancyModel (model_name : option string)
| CrossEncoderCall (prediction target : string)
| NewAnswerRelevancyModel (model_name : option string)
| Encode (texts : str_or_list)
| DotScore
| NewFactualConsistencyModel (model : option string)
| Predict (context prediction : string).

Inductive outcome (A : Type) : Type :=
| Return (a : A)
| Raise (e : exn).
Arguments Return {A} a.
Arguments Raise {A} e.

(** A call: the backend events it caused and how it ended. *)
Definition Py (A : Type) : Type := list event * outcome A.

Definition ret {A} (a : A) : Py A := ([], Return a).

Definition raise {A} (e : exn) : Py A := ([], Raise e).

Definition emit (e : event) : Py unit := ([e], Return tt).

Definition bind {A B} (m : Py A) (f : A -> Py B) : Py B :=
  match m with
  | (t, Raise e) => (t, Raise e)
  | (t, Return a) => let (t', r) := f a in (t ++ t', r)
  end.

Notation "x <- m ;; k" := (bind m (fun x => k))
  (at level 61, m at next level, right associativity).
Notation "m ;; k" := (bind m (fun _ => k))
  (at level 61, right associativity).

Definition trace {A} (m : Py A) : list event := fst m.
Definition result {A} (m : Py A) : outcome A := snd m.

(** [assert cond, msg] *)
Definition py_assert (cond : bool) (msg : string) : Py unit :=
  if cond then ret tt else raise (AssertionError msg).

(** [[f(x) for x in l]] *)
Fixpoint map_py {A B} (f : A -> Py B) (l : list A) : Py (list B) :=
  match l with
  | [] => ret []
  | x :: l' => y <- f x ;; ys <- map_py f l' ;; ret (y :: ys)
  end.

(** [for x in l: acc = body(acc, x)] *)
Fixpoint for_each {A S} (l : list A) (acc : S) (body : S -> A -> Py S) : Py S :=
  match l with
  | [] => ret acc
  | x :: l' => acc' <- body acc x ;; for_each l' acc' body
  end.

(** [d[key]] on a dict written as a list of items. *)
Fixpoint dict_get {V} (d : list (string * V)) (key : string) : Py V :=
  match d with
  | [] => raise (KeyError key)
  | (k, v) :: d' => if String.eqb k key then ret v else dict_get d' key
  end.

(** [l[0]] *)
Definition first {A} (l : list A) : Py A :=
  match l with
  | [] => raise IndexError
  | x :: _ => ret x
  end.

(** ** The methods of [Scorer] *)

Section Scorer.

(** The type of the numbers the backends return. *)
Context {score : Type} `{PyOrd score}.

(** [RougeScorer([score_type], use_stemmer).score(target, prediction)
    [score_type].fmeasure] *)
Variable rouge_fmeasure : string -> bool -> string -> string -> score.

(** [nltk.tokenize.word_tokenize] *)
Variable nltk_word_tokenize : string -> list string.

(** [nltk.translate.bleu_score.sentence_bleu] *)
Variable nltk_sentence_bleu :
  list (list string) -> list string -> weights -> score.

(** [CrossEncoderAnswerRelevancyModel(model_name)(prediction, target)] *)
Variable cross_encoder_score : option string -> string -> string -> score.

(** [AnswerRelevancyModel(model_name)] embeds one text as a vector, and
    a list of texts as the list of their vectors. *)
Context {embedding : Type}.
Variable encode : option string -> string -> embedding.

(** The dot product of two vectors, the entries of [util.dot_score]. *)
Variable dot : embedding -> embedding -> score.

(** [FactualConsistencyModel(model).predict(context, prediction)] *)
Variable fc_predict : option string -> string -> string -> score.

(** *** ROUGE *)

Definition rouge_types : list string := ["rouge1"; "rouge2"; "rougeL"].

Definition rouge_score (target prediction score_type : string) : Py score :=
  py_assert (py_in score_type rouge_types)
    "score_type can be either rouge1, rouge2 or rougeL" ;;
  emit (NewRougeScorer [score_type] true) ;;
  emit (RougeScore target prediction) ;;
  ret (rouge_fmeasure score_type true target prediction).

(** *** BLEU *)

Definition bleu_types : list string := ["bleu1"; "bleu2"; "bleu3"; "bleu4"].

Definition bleu_weight_map : list (string * weights) :=
  [ ("bleu1", (1, 0, 0, 0));
    ("bleu2", (0, 1, 0, 0));
    ("bleu3", (0, 0, 1, 0));
    ("bleu4", (0, 0, 0, 1)) ].

Definition word_tokenize (text : string) : Py (list string) :=
  emit (WordTokenize text) ;;
  ret (nltk_word_tokenize text).

Definition sentence_bleu (refs : list (list string)) (hyp : list string)
    (w : weights) : Py score :=
  emit (SentenceBleu refs hyp w) ;;
  ret (nltk_sentence_bleu refs hyp w).

(** [bleu_type] defaults to ["bleu1"]; a caller may pass [None]. *)
Definition sentence_bleu_score (references : str_or_list)
    (prediction : string) (bleu_type : option string) : Py score :=
  py_assert (py_in_opt bleu_type bleu_types)
    "Invalud bleu_type. Options: 'bleu1', 'bleu2', 'bleu3', 'bleu4'" ;;
  let targets := promote references in
  tokenized_targets <- map_py word_tokenize targets ;;
  tokenized_prediction <- word_tokenize prediction ;;
  w <- match bleu_type with
       | Some k => dict_get bleu_weight_map k
       | None => raise (KeyError "None")
       end ;;
  sentence_bleu tokenized_targets tokenized_prediction w.

(** *** Exact match *)

(** [if not prediction] holds of the empty string only. *)
Definition exact_match_score (target prediction : string) : Z :=
  if String.eqb prediction "" then 0
  else if String.eqb (strip prediction) (strip target) then 1 else 0.

(** *** PII *)

Definition PII_score {M : Type} (target prediction : string)
    (model : option M) : Py score :=
  raise NotImplementedError.

(** *** Answer relevancy *)

Definition model_types : list string := ["self_encoder"; "cross_encoder"].

(** [util.dot_score(a, b)]: the matrix of the dot products of the rows
    of [a] with the rows of [b]. *)
Definition dot_score (a b : list embedding) : Py (list (list score)) :=
  emit DotScore ;;
  ret (map (fun x => map (dot x) b) a).

Definition answer_relevancy_score (predictions : str_or_list)
    (target : string) (model_type model_name : option string) : Py score :=
  match model_type with
  | Some mt =>
      py_assert (py_in mt model_types)
        "model_type can be either 'self_encoder' or 'cross_encoder'"
  | None => ret tt
  end ;;
  let model_type :=
    match model_type with None => "cross_encoder" | Some mt => mt end in
  if String.eqb model_type "cross_encoder" then
    match predictions with
    | Lst _ =>
        raise (AssertionError
          "When model_type is 'cross_encoder', you can compare with one prediction and one target.")
    | Str prediction =>
        emit (NewCrossEncoderAnswerRelevancyModel model_name) ;;
        emit (CrossEncoderCall prediction target) ;;
        ret (cross_encoder_score model_name prediction target)
    end
  else
    emit (NewAnswerRelevancyModel model_name) ;;
    let docs := promote predictions in
    query_embedding <-
      (emit (Encode (Str target)) ;; ret (encode model_name target)) ;;
    document_embedding <-
      (emit (Encode (Lst docs)) ;; ret (map (encode model_name) docs)) ;;
    rows <- dot_score [query_embedding] document_embedding ;;
    scores <- first rows ;;
    first scores.

(** *** Factual consistency *)

Definition predict (model : option string) (context prediction : string)
    : Py score :=
  emit (Predict context prediction) ;;
  ret (fc_predict model context prediction).

Definition factual_consistency_score (contexts : str_or_list)
    (prediction : string) (model : option string) : Py score :=
  emit (NewFactualConsistencyModel model) ;;
  let contexts := promote contexts in
  for_each contexts py_zero (fun max_score context =>
    score <- predict model context prediction ;;
    ret (py_max max_score score)).

End Scorer.

(** ** Vocabulary of the statements *)

(** The name of the BLEU type of order [n]: ["bleu1"] for 1, and so on. *)
Definition bleu_name (n : nat) : string :=
  ("bleu" ++ String (ascii_of_nat (48 + n)) "")%string.

(** The weight tuple with 1 at the order [n] and 0 at the three others. *)
Definition single_order (n : nat) : weights :=
  (Z.b2z (n =? 1)%nat, Z.b2z (n =? 2)%nat, Z.b2z (n =? 3)%nat,
   Z.b2z (n =? 4)%nat).

(** The weight a tuple gives the n-gram order [i]. *)
Definition weight_at (i : nat) (w : weights) : Z :=
  let '(w1, w2, w3, w4) := w in
  match i with
  | 1%nat => w1
  | 2%nat => w2
  | 3%nat => w3
  | 4%nat => w4
  | _ => 0
  end.

(** The scores the backend gives the contexts, in order. *)
Definition context_scores {score : Type}
    (fc_predict : option string -> string -> string -> score)
    (model : option string) (prediction : string) (contexts : list string)
    : list score :=
  map (fun context => fc_predict model context prediction) contexts.

(** The call returns [r]. *)
Definition returns {A} (m : Py A) (r : A) : Prop := result m = Return r.

(** What the description of [factual_consistency_score] says of a list of
    contexts: the call returns a largest of the scores the backend gives
    them. *)
Definition returns_max_backend_score {score : Type} `{PyOrd score}
    (fc_predict : option string -> string -> string -> score)
    (contexts : list string) (prediction : string) (model : option string)
    : Prop :=
  exists r,
    returns (factual_consistency_score fc_predict (Lst contexts) prediction model) r
    /\ is_max_of r (context_scores fc_predict model prediction contexts).

(** The float -1.0. *)
Definition minus_one : spec_float := S754_finite true 1 0.

(** The float 0.5. *)
Definition one_half : spec_float := S754_finite false 1 (-1).

(** ** Two more methods: quasi-exact match and BERTScore *)

Section QuasiExactMatch.

(** [deepeval.utils.normalize_text], which this file imports: a function
    from strings to strings. *)
Variable normalize_text : string -> string.

Definition quasi_exact_match_score (target prediction : string) : Z :=
  if String.eqb prediction "" then 0
  else if String.eqb (normalize_text target) (normalize_text prediction)
       then 1 else 0.

End QuasiExactMatch.

(** The [refs] argument of [BERTScorer.score]: one reference per candidate,
    or a list of groups of references. *)
Inductive bert_refs : Type :=
| FlatRefs (refs : list string)
| GroupedRefs (groups : list (list string)).

(** The number of entries of [refs], which the scorer pairs with the
    candidates. *)
Definition refs_count (refs : bert_refs) : nat :=
  match refs with
  | FlatRefs l => length l
  | GroupedRefs g => length g
  end.

(** The calls [bert_score] makes to its backend. *)
Inductive bert_event : Type :=
| NewBERTScorer (model_type lang : option string)
                (rescale_with_baseline : bool) (device : string)
| BERTScorerScore (cands : list string) (refs : bert_refs).

(** A call with events of type [E]: [Py] is the case of [event]. *)
Definition Traced (E A : Type) : Type := list E * outcome A.

Definition tret {E A} (a : A) : Traced E A := ([], Return a).

Definition traise {E A} (e : exn) : Traced E A := ([], Raise e).

Definition temit {E} (e : E) : Traced E unit := ([e], Return tt).

Definition tbind {E A B} (m : Traced E A) (f : A -> Traced E B)
    : Traced E B :=
  match m with
  | (t, Raise e) => (t, Raise e)
  | (t, Return a) => let (t', r) := f a in (t ++ t', r)
  end.

Section BertScore.

Context {score : Type}.

(** [torch.cuda.is_available()] at the time of the call. *)
Variable cuda_is_available : bool.

(** [BERTScorer(model_type, lang, rescale_with_baseline=True, device)
    .score(cands, refs)]: precision, recall and F1, one number per
    candidate. *)
Variable bert_scorer_score :
  option string -> option string -> string -> list string -> bert_refs ->
  list score * list score * list score.

(** [references[0]] is evaluated on the promoted list, so an empty list
    raises [IndexError]; an element of a list of strings is no list, so
    the test on it holds and the lengths decide. *)
Definition bert_score (references predictions : str_or_list)
    (model lang : option string)
    : Traced bert_event (list (string * list score)) :=
  let device := if cuda_is_available then "cuda" else "cpu" in
  tbind (temit (NewBERTScorer model lang true device)) (fun _ =>
  let predictions := promote predictions in
  let references := promote references in
  tbind
    (match references with
     | [] => traise IndexError
     | _ :: _ =>
         tret (if Nat.eqb (length predictions) (length references)
               then FlatRefs references
               else GroupedRefs [references])
     end) (fun refs =>
  tbind (temit (BERTScorerScore predictions refs)) (fun _ =>
  let '(precision, recall, f1) :=
    bert_scorer_score model lang device predictions refs in
  tret [ ("bert-precision", precision);
         ("bert-recall", recall);
         ("bert-f1", f1) ]))).

End BertScore.

(** ** More vocabulary *)

(** Above zero, any two scores compare or are the same score.  The
    integers and the floats have this; a NaN is not above zero. *)
Class PyOrdTotal (A : Type) `{PyOrd A} : Prop := {
  py_gt_total : forall x y : A,
      py_gt x py_zero = true -> py_gt y py_zero = true ->
      py_gt x y = true \/ x = y \/ py_gt y x = true
}.

(** Zero, or above zero: the values a running maximum that starts at zero
    can take. *)
Definition floor_or_above {A} `{PyOrd A} (a : A) : Prop :=
  a = py_zero \/ py_gt a py_zero = true.

(** * Properties *)

(** ** The order of the score types *)

Lemma Z_laws : PyOrdLaws Z.
Proof.
  split; unfold py_gt, PyOrd_Z; intros.
  - rewrite Z.gtb_ltb. apply Z.ltb_irrefl.
  - rewrite Z.gtb_ltb, Z.ltb_lt in *. lia.
Qed.

(** On floats [<] never holds of a value and itself. *)
Lemma SFltb_irrefl (x : spec_float) : SFltb x x = false.
Proof.
  unfold SFltb.
  destruct x as [s | s | | s m e]; simpl; try reflexivity;
    destruct s; try reflexivity;
    rewrite Z.compare_refl, Pos.compare_cont_refl; reflexivity.
Qed.

(** ... and it is transitive, NaN and the two zeros included. *)
Lemma SFltb_trans (x y z : spec_float) :
  SFltb x y = true -> SFltb y z = true -> SFltb x z = true.
Proof.
  unfold SFltb.
  destruct x as [sx | sx | | sx mx ex], y as [sy | sy | | sy my ey],
    z as [sz | sz | | sz mz ez]; simpl;
    try discriminate; try (destruct sx); try (destruct sy);
    try (destruct sz); simpl; try discriminate; try reflexivity;
    fold (Pos.compare mx my); fold (Pos.compare my mz);
    fold (Pos.compare mx mz);
    destruct (Z.compare_spec ex ey), (Z.compare_spec ey ez),
      (Z.compare_spec ex ez); try lia; try discriminate; try reflexivity;
    subst;
    destruct (Pos.compare_spec mx my), (Pos.compare_spec my mz),
      (Pos.compare_spec mx mz); simpl;
    try lia; try discriminate; try reflexivity.
Qed.

Lemma float_laws : PyOrdLaws spec_float.
Proof.
  split; unfold py_gt, PyOrd_float; intros.
  - apply SFltb_irrefl.
  - eapply SFltb_trans; eassumption.
Qed.

(** ** Python's [max] over a strict partial order *)

Section MaxFacts.

Context {A : Type} `{PyOrdLaws A}.

Lemma py_max_cases (a b : A) :
  (py_gt b a = true /\ py_max a b = b) \/ (py_gt b a = false /\ py_max a b = a).
Proof. unfold py_max. destruct (py_gt b a); auto. Qed.

(** Nothing that is not above [a] is above [max(a, b)] ... *)
Lemma py_max_keeps_bound (s a b : A) :
  py_gt s a = false -> py_gt s (py_max a b) = false.
Proof.
  intros Hs. destruct (py_max_cases a b) as [[Hba ->] | [_ ->]]; [| exact Hs].
  destruct (py_gt s b) eqn:Hsb; [| reflexivity].
  rewrite <- Hs. symmetry. eapply py_gt_trans; eassumption.
Qed.

(** ... and [b] itself is not. *)
Lemma py_max_bounds_right (a b : A) : py_gt b (py_max a b) = false.
Proof.
  destruct (py_max_cases a b) as [[_ ->] | [Hba ->]];
    [apply py_gt_irrefl | exact Hba].
Qed.

(** The running maximum of a loop is never below a value it once had. *)
Lemma fold_max_keeps_bound (l : list A) (acc s : A) :
  py_gt s acc = false -> py_gt s (fold_left py_max l acc) = false.
Proof.
  revert acc. induction l as [| x l IH]; intros acc Hs; simpl.
  - exact Hs.
  - apply IH, py_max_keeps_bound, Hs.
Qed.

Lemma fold_max_upper_bound (l : list A) (acc s : A) :
  In s (acc :: l) -> py_gt s (fold_left py_max l acc) = false.
Proof.
  revert acc. induction l as [| x l IH]; intros acc Hin.
  - destruct Hin as [<- | []]. apply py_gt_irrefl.
  - simpl. destruct Hin as [<- | [<- | Hin]].
    + apply fold_max_keeps_bound, py_max_keeps_bound, py_gt_irrefl.
    + apply fold_max_keeps_bound, py_max_bounds_right.
    + apply IH. right. exact Hin.
Qed.

Lemma fold_max_in (l : list A) (acc : A) :
  In (fold_left py_max l acc) (acc :: l).
Proof.
  revert acc. induction l as [| x l IH]; intros acc; simpl.
  - left. reflexivity.
  - destruct (IH (py_max acc x)) as [Heq | Hin].
    + destruct (py_max_cases acc x) as [[_ E] | [_ E]]; rewrite E in *.
      * right. left. exact Heq.
      * left. exact Heq.
    + right. right. exact Hin.
Qed.

Lemma fold_max_is_max (l : list A) (acc : A) :
  is_max_of (fold_left py_max l acc) (acc :: l).
Proof.
  split; [apply fold_max_in | intros s; apply fold_max_upper_bound].
Qed.

(** Two maxima taken from zero combine like one taken over both. *)
Lemma py_max_from_zero (a b : A) :
  py_max (py_max py_zero a) b
  = py_max (py_max py_zero a) (py_max py_zero b).
Proof.
  destruct (py_max_cases py_zero b) as [[Hb ->] | [Hb ->]]; [reflexivity |].
  assert (Hb' : py_gt b (py_max py_zero a) = false)
    by (apply py_max_keeps_bound, Hb).
  unfold py_max at 1. rewrite Hb'.
  unfold py_max at 2.
  rewrite (py_max_keeps_bound py_zero py_zero a (py_gt_irrefl _)).
  reflexivity.
Qed.

End MaxFacts.

(** ** The monad *)

Lemma bind_ret_l {A B} (a : A) (f : A -> Py B) : bind (ret a) f = f a.
Proof. unfold bind, ret. destruct (f a). reflexivity. Qed.

Lemma bind_ret_r {A} (m : Py A) : bind m ret = m.
Proof.
  destruct m as [t [a | e]]; simpl; [rewrite app_nil_r |]; reflexivity.
Qed.

Lemma bind_assoc {A B C} (m : Py A) (f : A -> Py B) (g : B -> Py C) :
  bind (bind m f) g = bind m (fun a => bind (f a) g).
Proof.
  destruct m as [t [a | e]]; simpl; [| reflexivity].
  destruct (f a) as [t' [b | e]]; simpl; [| reflexivity].
  destruct (g b) as [t'' r]. rewrite app_assoc. reflexivity.
Qed.

Lemma bind_emit {B} (e : event) (k : Py B) :
  bind (emit e) (fun _ => k) = (e :: trace k, result k).
Proof. unfold bind, emit. destruct k. reflexivity. Qed.

(** A comprehension over calls that all return yields the list of their
    values, and causes their events in order. *)
Lemma map_py_returns {A B} (f : A -> Py B) (ev : A -> event) (g : A -> B)
    (l : list A) :
  (forall x, f x = ([ev x], Return (g x))) ->
  map_py f l = (map ev l, Return (map g l)).
Proof.
  intros Hf. induction l as [| x l IH]; simpl.
  - reflexivity.
  - rewrite Hf, IH. unfold bind, ret. simpl. rewrite app_nil_r. reflexivity.
Qed.

Lemma for_each_returns {A S} (body : S -> A -> Py S) (ev : A -> event)
    (g : S -> A -> S) (l : list A) (acc : S) :
  (forall s x, body s x = ([ev x], Return (g s x))) ->
  for_each l acc body = (map ev l, Return (fold_left g l acc)).
Proof.
  intros Hb. revert acc. induction l as [| x l IH]; intros acc; simpl.
  - reflexivity.
  - rewrite Hb. simpl. rewrite IH. reflexivity.
Qed.

(** [x in l] as a proposition. *)
Lemma py_in_spec (x : string) (l : list string) : py_in x l = true <-> In x l.
Proof.
  unfold py_in. rewrite existsb_exists. split.
  - intros [y [Hy E]]. apply String.eqb_eq in E. subst. exact Hy.
  - intros Hx. exists x. split; [exact Hx | apply String.eqb_refl].
Qed.

Lemma py_in_false (x : string) (l : list string) :
  ~ In x l -> py_in x l = false.
Proof.
  intros Hx. destruct (py_in x l) eqn:E; [| reflexivity].
  apply py_in_spec in E. contradiction.
Qed.

(** ** Exact match *)

Lemma eqb_empty (s : string) : String.eqb s "" = true <-> s = "".
Proof. apply String.eqb_eq. Qed.

(** C3, first half as stated, fails: both strings empty trim to the same
    string, and the score is 0. *)
Lemma exact_match_score_empty_pair :
  ~ (exact_match_score "" "" = 1 <-> strip "" = strip "").
Proof.
  intros [_ Himp]. specialize (Himp eq_refl). discriminate Himp.
Qed.

(** C3 (amended): for a prediction that is not the empty string,
    [exact_match_score] is 1 exactly when the trimmed prediction equals the
    trimmed target and 0 exactly when it does not; for the empty
    prediction it is 0 whatever the target. *)
Theorem exact_match_score_trimmed (target prediction : string)
    (Hne : prediction <> "") :
  (exact_match_score target prediction = 1
     <-> strip prediction = strip target)
  /\ (exact_match_score target prediction = 0
     <-> strip prediction <> strip target)
  /\ exact_match_score target "" = 0.
Proof.
  unfold exact_match_score.
  destruct (String.eqb prediction "") eqn:Hp.
  - apply eqb_empty in Hp. contradiction.
  - destruct (String.eqb_spec (strip prediction) (strip target)) as [E | E];
      simpl; repeat split; intros; try assumption; try reflexivity;
      try discriminate; contradiction.
Qed.

Lemma exact_match_score_trimmed_witness :
  " a " <> ""
  /\ ((exact_match_score "a" " a " = 1 <-> strip " a " = strip "a")
      /\ (exact_match_score "a" " a " = 0 <-> strip " a " <> strip "a")
      /\ exact_match_score "a" "" = 0).
Proof.
  split; [discriminate | apply (exact_match_score_trimmed "a" " a ")].
  discriminate.
Defined.

(** C10: [exact_match_score] gives 0 without comparing only for the empty
    prediction; any other prediction, a blank one included, is trimmed and
    compared.  So a blank prediction matches the empty target, the empty
    prediction does not match a blank target, and the two arguments cannot be
    swapped. *)
Theorem exact_match_score_guard_is_emptiness :
  (forall target, exact_match_score target "" = 0)
  /\ (forall target c p,
        exact_match_score target (String c p)
        = if String.eqb (strip (String c p)) (strip target) then 1 else 0)
  /\ exact_match_score "" "   " = 1
  /\ exact_match_score "   " "" = 0
  /\ ~ (forall a b, exact_match_score a b = exact_match_score b a).
Proof.
  repeat split; try reflexivity.
  intros Hsym. specialize (Hsym "" "   "). discriminate Hsym.
Qed.

(** ** PII *)

(** C8: whatever the target, the prediction and the model, [PII_score]
    raises [NotImplementedError], the exception of a method that is not
    supported, before any backend event, and returns no value. *)
Theorem PII_score_raises {score M : Type} (target prediction : string)
    (model : option M) :
  @PII_score score M target prediction model = ([], Raise NotImplementedError)
  /\ forall v, ~ returns (@PII_score score M target prediction model) v.
Proof.
  split; [reflexivity | intros v Hv; discriminate Hv].
Qed.

(** ** ROUGE and BLEU *)

Section Bleu.

Context {score : Type}.
Variable rouge_fmeasure : string -> bool -> string -> string -> score.
Variable tokenize : string -> list string.
Variable bleu : list (list string) -> list string -> weights -> score.

(** Tokenizing the references one by one. *)
Lemma tokenized_targets (targets : list string) :
  map_py (word_tokenize tokenize) targets
  = (map WordTokenize targets, Return (map tokenize targets)).
Proof. apply map_py_returns. reflexivity. Qed.

(** What a call with a listed type and a given weight tuple does. *)
Lemma sentence_bleu_score_listed (references : str_or_list)
    (prediction k : string) (w : weights) :
  py_in k bleu_types = true ->
  dict_get bleu_weight_map k = ret w ->
  sentence_bleu_score tokenize bleu references prediction (Some k)
  = (map WordTokenize (promote references)
       ++ [WordTokenize prediction;
           SentenceBleu (map tokenize (promote references))
             (tokenize prediction) w],
     Return (bleu (map tokenize (promote references))
               (tokenize prediction) w)).
Proof.
  intros Hin Hw. unfold sentence_bleu_score.
  change (py_in_opt (Some k) bleu_types) with (py_in k bleu_types).
  rewrite Hin, Hw, tokenized_targets. reflexivity.
Qed.

(** C4: a reference given as the string [ref] and as the list [[ref]]
    make [sentence_bleu_score] do the same thing, events and outcome, for
    every prediction and every [bleu_type]; with each of the four listed
    types that outcome is the value of the backend on the one tokenized
    reference. *)
Theorem sentence_bleu_score_lone_string (ref prediction : string)
    (bleu_type : option string) :
  sentence_bleu_score tokenize bleu (Str ref) prediction bleu_type
  = sentence_bleu_score tokenize bleu (Lst [ref]) prediction bleu_type
  /\ Forall (fun k => exists w,
       returns (sentence_bleu_score tokenize bleu (Str ref) prediction (Some k))
         (bleu [tokenize ref] (tokenize prediction) w))
     bleu_types.
Proof.
  split; [reflexivity |].
  repeat constructor; eexists; reflexivity.
Qed.

(** C5: for an order [n] from 1 to 4, [sentence_bleu_score] tokenizes the
    references and the prediction and calls the backend once, with a
    weight tuple that gives the order [n] the weight 1 and every other
    order the weight 0, the orders below [n] included; what it returns is
    the value of the backend for that tuple. *)
Theorem sentence_bleu_score_single_order (references : str_or_list)
    (prediction : string) (n : nat) (Hn : (1 <= n <= 4)%nat) :
  sentence_bleu_score tokenize bleu references prediction (Some (bleu_name n))
  = (map WordTokenize (promote references)
       ++ [WordTokenize prediction;
           SentenceBleu (map tokenize (promote references))
             (tokenize prediction) (single_order n)],
     Return (bleu (map tokenize (promote references))
               (tokenize prediction) (single_order n)))
  /\ weight_at n (single_order n) = 1
  /\ (forall i, i <> n -> weight_at i (single_order n) = 0).
Proof.
  assert (Hcases : n = 1%nat \/ n = 2%nat \/ n = 3%nat \/ n = 4%nat) by lia.
  destruct Hcases as [-> | [-> | [-> | ->]]];
    (split; [apply sentence_bleu_score_listed; reflexivity |]);
    (split; [reflexivity |]);
    intros [| [| [| [| [| i]]]]] Hi; try reflexivity; contradiction.
Qed.

(** C6: a [score_type] outside rouge1, rouge2, rougeL makes [rouge_score]
    raise [AssertionError], and a [bleu_type] outside bleu1, ..., bleu4
    ([None] included) makes [sentence_bleu_score] raise [AssertionError];
    [AssertionError] is how the methods reject an invalid argument.  In
    both cases no backend event comes before: no scorer is constructed,
    nothing is tokenized, nothing is scored. *)
Theorem invalid_type_raises_first :
  (forall target prediction score_type,
      ~ In score_type rouge_types ->
      rouge_score rouge_fmeasure target prediction score_type
      = ([], Raise (AssertionError
               "score_type can be either rouge1, rouge2 or rougeL")))
  /\ (forall references prediction bleu_type,
      (forall k, bleu_type = Some k -> ~ In k bleu_types) ->
      sentence_bleu_score tokenize bleu references prediction bleu_type
      = ([], Raise (AssertionError
               "Invalud bleu_type. Options: 'bleu1', 'bleu2', 'bleu3', 'bleu4'"))).
Proof.
  split.
  - intros target prediction score_type Hout.
    unfold rouge_score. rewrite (py_in_false _ _ Hout). reflexivity.
  - intros references prediction bleu_type Hout.
    unfold sentence_bleu_score.
    destruct bleu_type as [k |].
    + change (py_in_opt (Some k) bleu_types) with (py_in k bleu_types).
      rewrite (py_in_false _ _ (Hout k eq_refl)). reflexivity.
    + reflexivity.
Qed.

End Bleu.

(** ** Answer relevancy *)

Section AnswerRelevancy.

Context {score : Type}.
Variable cross_encoder_score : option string -> string -> string -> score.
Context {embedding : Type}.
Variable encode : option string -> string -> embedding.
Variable dot : embedding -> embedding -> score.

(** C7: when [model_type] is omitted or is ["cross_encoder"], a list of
    predictions, of any length, makes [answer_relevancy_score] raise
    [AssertionError] before any backend event, so before a model is
    constructed; a single string is scored by the cross-encoder; hence a
    call that returns was given a single string. *)
Theorem cross_encoder_rejects_list (target : string)
    (model_type model_name : option string)
    (Hcross : model_type = None \/ model_type = Some "cross_encoder") :
  (forall l,
      answer_relevancy_score cross_encoder_score encode dot
        (Lst l) target model_type model_name
      = ([], Raise (AssertionError
           "When model_type is 'cross_encoder', you can compare with one prediction and one target.")))
  /\ (forall s,
      answer_relevancy_score cross_encoder_score encode dot
        (Str s) target model_type model_name
      = ([NewCrossEncoderAnswerRelevancyModel model_name;
          CrossEncoderCall s target],
         Return (cross_encoder_score model_name s target)))
  /\ (forall predictions v,
      returns (answer_relevancy_score cross_encoder_score encode dot
                 predictions target model_type model_name) v ->
      exists s, predictions = Str s).
Proof.
  assert (Hlist : forall l,
      answer_relevancy_score cross_encoder_score encode dot
        (Lst l) target model_type model_name
      = ([], Raise (AssertionError
           "When model_type is 'cross_encoder', you can compare with one prediction and one target."))).
  { intros l. destruct Hcross as [-> | ->]; reflexivity. }
  split; [exact Hlist |]. split.
  - intros s. destruct Hcross as [-> | ->]; reflexivity.
  - intros [s | l] v Hv.
    + exists s. reflexivity.
    + unfold returns in Hv. rewrite Hlist in Hv. discriminate Hv.
Qed.


End AnswerRelevancy.

(** ** Factual consistency *)

Section FactualConsistency.

Context {score : Type} {score_ord : PyOrd score}
  {score_laws : PyOrdLaws score}.
Variable fc_predict : option string -> string -> string -> score.

Lemma fold_left_py_max_map {X : Type} (f : X -> score) (l : list X)
    (acc : score) :
  fold_left (fun s x => py_max s (f x)) l acc = fold_left py_max (map f l) acc.
Proof.
  revert acc. induction l as [| x l IH]; intros acc; simpl.
  - reflexivity.
  - apply IH.
Qed.

(** The loop scores every context once, in order, and keeps the running
    maximum, which starts at zero. *)
Lemma factual_consistency_score_run (contexts : str_or_list)
    (prediction : string) (model : option string) :
  factual_consistency_score fc_predict contexts prediction model
  = (NewFactualConsistencyModel model
       :: map (fun c => Predict c prediction) (promote contexts),
     Return (fold_left py_max
               (context_scores fc_predict model prediction (promote contexts))
               py_zero)).
Proof.
  unfold factual_consistency_score, context_scores.
  rewrite (for_each_returns _ (fun c => Predict c prediction)
             (fun s c => py_max s (fc_predict model c prediction)))
    by reflexivity.
  rewrite bind_emit, fold_left_py_max_map. reflexivity.
Qed.

(** C9: whatever [contexts] is, [factual_consistency_score] returns a
    largest element of zero together with the scores the backend gives the
    contexts, and zero is never above the value returned, even if every
    context scores below zero.  A string is one context: the model is
    constructed, [predict] is called once, on that string, and the value
    is its score if the score is above zero and zero otherwise.  A list is
    scored element by element, in order; the empty list gives zero after
    the model is constructed and without a single call to [predict]. *)
Theorem factual_consistency_score_floor (prediction : string)
    (model : option string) :
  (forall context,
      factual_consistency_score fc_predict (Str context) prediction model
      = ([NewFactualConsistencyModel model; Predict context prediction],
         Return (if py_gt (fc_predict model context prediction) py_zero
                 then fc_predict model context prediction
                 else py_zero))
      /\ is_max_of
           (if py_gt (fc_predict model context prediction) py_zero
            then fc_predict model context prediction
            else py_zero)
           [py_zero; fc_predict model context prediction]
      /\ py_gt py_zero
           (if py_gt (fc_predict model context prediction) py_zero
            then fc_predict model context prediction
            else py_zero) = false)
  /\ (forall contexts, exists r,
      factual_consistency_score fc_predict (Lst contexts) prediction model
      = (NewFactualConsistencyModel model
           :: map (fun c => Predict c prediction) contexts,
         Return r)
      /\ is_max_of r
           (py_zero
              :: map (fun c => fc_predict model c prediction) contexts)
      /\ py_gt py_zero r = false)
  /\ factual_consistency_score fc_predict (Lst []) prediction model
     = ([NewFactualConsistencyModel model], Return py_zero).
Proof.
  split; [| split; [| reflexivity]].
  - intros context.
    split; [reflexivity |].
    change (if py_gt (fc_predict model context prediction) py_zero
            then fc_predict model context prediction
            else py_zero)
      with (fold_left py_max [fc_predict model context prediction] py_zero).
    split.
    + apply fold_max_is_max.
    + apply fold_max_upper_bound. left. reflexivity.
  - intros contexts.
    exists (fold_left py_max
              (map (fun c => fc_predict model c prediction) contexts)
              py_zero).
    split; [apply (factual_consistency_score_run (Lst contexts)) |].
    split.
    + apply fold_max_is_max.
    + apply fold_max_upper_bound. left. reflexivity.
Qed.

(** C1 (amended): [factual_consistency_score([c1, c2], prediction)] returns
    the [max] of what it returns for [c1] and for [c2]; and for a list of
    contexts that is not empty it scores each context against the
    prediction, once and in order, and returns a largest element of zero
    together with these scores, which is a largest of the scores as soon as
    one of them is zero or more. *)
Theorem factual_consistency_score_max (prediction : string)
    (model : option string) :
  (forall c1 c2,
      result (factual_consistency_score fc_predict (Lst [c1; c2])
                prediction model)
      = result (a <- factual_consistency_score fc_predict (Str c1)
                       prediction model ;;
                b <- factual_consistency_score fc_predict (Str c2)
                       prediction model ;;
                ret (py_max a b)))
  /\ (forall c cs, exists r,
      factual_consistency_score fc_predict (Lst (c :: cs)) prediction model
      = (NewFactualConsistencyModel model
           :: map (fun c' => Predict c' prediction) (c :: cs),
         Return r)
      /\ is_max_of r
           (py_zero :: context_scores fc_predict model prediction (c :: cs))
      /\ ((exists s,
              In s (context_scores fc_predict model prediction (c :: cs))
              /\ nonneg s) ->
          returns_max_backend_score fc_predict (c :: cs) prediction model)).
Proof.
  split.
  - intros c1 c2. rewrite !factual_consistency_score_run.
    unfold bind, ret, result. simpl. f_equal. apply py_max_from_zero.
  - intros c cs.
    set (scores := context_scores fc_predict model prediction (c :: cs)).
    assert (Hmax := fold_max_is_max scores py_zero).
    exists (fold_left py_max scores py_zero).
    split; [apply factual_consistency_score_run |].
    split; [exact Hmax |].
    intros [s [Hs Hnn]]. exists (fold_left py_max scores py_zero).
    split; [unfold returns; rewrite factual_consistency_score_run; reflexivity |].
    destruct Hmax as [Hin Hub]. split.
    + destruct Hin as [Hz | Hin]; [| exact Hin].
      destruct Hnn as [Hgt | ->].
      * specialize (Hub s (or_intror Hs)). rewrite <- Hz in Hub.
        rewrite Hub in Hgt. discriminate Hgt.
      * rewrite <- Hz. exact Hs.
    + intros s' Hs'. apply Hub. right. exact Hs'.
Qed.

End FactualConsistency.

(** ** The statements at concrete inputs *)

(** Order 2 puts the weight on bigrams only: the tuple is (0, 1, 0, 0). *)
Lemma sentence_bleu_score_single_order_witness :
  (1 <= 2 <= 4)%nat
  /\ sentence_bleu_score (fun text => [text]) (fun _ _ _ => one_half)
       (Lst ["the cat sat"; "a cat sat"]) "the cat" (Some "bleu2")
     = ([WordTokenize "the cat sat"; WordTokenize "a cat sat";
         WordTokenize "the cat";
         SentenceBleu [["the cat sat"]; ["a cat sat"]] ["the cat"]
           (0, 1, 0, 0)],
        Return one_half).
Proof.
  split; [lia |].
  refine (proj1 (sentence_bleu_score_single_order (fun text => [text])
           (fun _ _ _ => one_half) (Lst ["the cat sat"; "a cat sat"])
           "the cat" 2 _)).
  lia.
Defined.

(** ["rouge5"] and ["bleu5"] are rejected before anything else happens. *)
Lemma invalid_type_raises_first_witness :
  rouge_score (fun _ _ _ _ => one_half) "the cat" "the cat" "rouge5"
  = ([], Raise (AssertionError
           "score_type can be either rouge1, rouge2 or rougeL"))
  /\ sentence_bleu_score (fun text => [text]) (fun _ _ _ => one_half)
       (Str "the cat") "the cat" (Some "bleu5")
     = ([], Raise (AssertionError
           "Invalud bleu_type. Options: 'bleu1', 'bleu2', 'bleu3', 'bleu4'")).
Proof.
  pose proof (invalid_type_raises_first (fun _ _ _ _ => one_half)
                (fun text => [text]) (fun _ _ _ => one_half))
    as [Hrouge Hbleu].
  split.
  - apply Hrouge. simpl. intros [E | [E | [E | []]]]; discriminate E.
  - apply Hbleu. intros k E. injection E as <-. simpl.
    intros [E | [E | [E | [E | []]]]]; discriminate E.
Defined.

(** With [model_type] omitted, a list of two predictions is rejected. *)
Lemma cross_encoder_rejects_list_witness :
  (@None string = None \/ @None string = Some "cross_encoder")
  /\ answer_relevancy_score (fun _ _ _ => one_half)
       (fun _ text => String.length text)
       (fun a b => if Nat.eqb a b then one_half else minus_one)
       (Lst ["yes"; "no"]) "is it?" None None
     = ([], Raise (AssertionError
           "When model_type is 'cross_encoder', you can compare with one prediction and one target.")).
Proof.
  split; [left; reflexivity |].
  apply (cross_encoder_rejects_list (fun _ _ _ => one_half)
           (fun _ text => String.length text)
           (fun a b => if Nat.eqb a b then one_half else minus_one)
           "is it?" None None).
  left. reflexivity.
Defined.

(** C1, second half as stated, fails: a backend that gives the only
    context the score -1.0 makes the call return zero, which is none of
    the backend's scores. *)
Lemma factual_consistency_score_not_a_backend_score :
  ~ returns_max_backend_score (fun _ _ _ => minus_one) ["a"] "p" None.
Proof.
  intros [r [Hr [Hin _]]]. unfold returns in Hr. simpl in Hr.
  injection Hr as <-. destruct Hin as [E | []]. discriminate E.
Qed.

(** Two contexts scored 0.5 and -1.0: the call returns 0.5, the larger of
    the two scores. *)
Lemma factual_consistency_score_max_witness :
  PyOrdLaws spec_float
  /\ (forall c1 c2,
      result (factual_consistency_score
                (fun _ c _ => if String.eqb c "a" then one_half else minus_one)
                (Lst [c1; c2]) "p" None)
      = result (a <- factual_consistency_score
                       (fun _ c _ =>
                          if String.eqb c "a" then one_half else minus_one)
                       (Str c1) "p" None ;;
                b <- factual_consistency_score
                       (fun _ c _ =>
                          if String.eqb c "a" then one_half else minus_one)
                       (Str c2) "p" None ;;
                ret (py_max a b)))
  /\ returns_max_backend_score
       (fun _ c _ => if String.eqb c "a" then one_half else minus_one)
       ["a"; "b"] "p" None.
Proof.
  pose proof (factual_consistency_score_max (score_laws := float_laws)
                (fun _ c _ => if String.eqb c "a" then one_half else minus_one)
                "p" None) as [Hpair Hlist].
  split; [exact float_laws |]. split; [exact Hpair |].
  destruct (Hlist "a" ["b"]) as [r [_ [_ Hmax]]].
  apply Hmax. exists one_half. split.
  - left. reflexivity.
  - left. reflexivity.
Defined.

(** A string context that scores 0.5 gives 0.5 after one call to
    [predict]; one that scores -1.0 gives zero, and so do two contexts in
    a list that both score -1.0. *)
Lemma factual_consistency_score_floor_witness :
  PyOrdLaws spec_float
  /\ factual_consistency_score
       (fun _ c _ => if String.eqb c "a" then one_half else minus_one)
       (Str "a") "p" None
     = ([NewFactualConsistencyModel None; Predict "a" "p"], Return one_half)
  /\ factual_consistency_score
       (fun _ c _ => if String.eqb c "a" then one_half else minus_one)
       (Str "b") "p" None
     = ([NewFactualConsistencyModel None; Predict "b" "p"], Return py_zero)
  /\ (exists r,
      factual_consistency_score
        (fun _ c _ => if String.eqb c "a" then one_half else minus_one)
        (Lst ["b"; "c"]) "p" None
      = ([NewFactualConsistencyModel None; Predict "b" "p"; Predict "c" "p"],
         Return r)
      /\ is_max_of r [py_zero; minus_one; minus_one]
      /\ py_gt py_zero r = false)
  /\ factual_consistency_score
       (fun _ c _ => if String.eqb c "a" then one_half else minus_one)
       (Lst []) "p" None
     = ([NewFactualConsistencyModel None], Return py_zero).
Proof.
  pose proof (factual_consistency_score_floor (score_laws := float_laws)
                (fun _ c _ => if String.eqb c "a" then one_half else minus_one)
                "p" None) as [Hstr [Hlist Hempty]].
  split; [exact float_laws |].
  split; [exact (proj1 (Hstr "a")) |].
  split; [exact (proj1 (Hstr "b")) |].
  split; [exact (Hlist ["b"; "c"]) | exact Hempty].
Defined.

(** * Further properties of the methods *)

(** ** Trimming *)

(** A character that is no white space stops [rstrip] from eating it. *)
Lemma rstrip_nonspace_head (c : ascii) (s : string) :
  is_space c = false -> rstrip (String c s) = String c (rstrip s).
Proof.
  intros Hc. simpl. destruct (rstrip s); [rewrite Hc |]; reflexivity.
Qed.

Lemma rstrip_idempotent (s : string) : rstrip (rstrip s) = rstrip s.
Proof.
  induction s as [| c s IH]; [reflexivity |].
  simpl. destruct (rstrip s) as [| d r] eqn:Hr.
  - destruct (is_space c) eqn:Hc; [reflexivity |].
    simpl. rewrite Hc. reflexivity.
  - change (rstrip (String c (String d r)) = String c (String d r)).
    simpl. simpl in IH. rewrite IH. reflexivity.
Qed.

(** What [lstrip] leaves is empty or starts with a character that is no
    white space. *)
Lemma lstrip_head (s : string) :
  lstrip s = "" \/ exists c r, lstrip s = String c r /\ is_space c = false.
Proof.
  induction s as [| c s IH]; [left; reflexivity |].
  simpl. destruct (is_space c) eqn:Hc; [exact IH |].
  right. exists c, s. split; [reflexivity | exact Hc].
Qed.

(** Trimming a trimmed string changes nothing. *)
Lemma strip_idempotent (s : string) : strip (strip s) = strip s.
Proof.
  unfold strip. destruct (lstrip_head s) as [-> | [c [r [-> Hc]]]].
  - reflexivity.
  - rewrite (rstrip_nonspace_head c r Hc). simpl lstrip. rewrite Hc.
    rewrite <- (rstrip_nonspace_head c r Hc). apply rstrip_idempotent.
Qed.

Lemma eqb_empty_false (s : string) : s <> "" -> String.eqb s "" = false.
Proof.
  intros Hs. destruct (String.eqb s "") eqn:E; [| reflexivity].
  apply eqb_empty in E. contradiction.
Qed.

(** ** Exact match, continued *)

(** X1: white space around the target never changes
    [exact_match_score], for any target and any prediction; white space
    around a prediction does not either, provided the prediction is not
    blank: [exact_match_score] of the trimmed arguments is
    [exact_match_score] of the arguments. *)
Theorem exact_match_score_ignores_padding :
  (forall target prediction,
      exact_match_score (strip target) prediction
      = exact_match_score target prediction)
  /\ (forall target prediction,
        strip prediction <> "" ->
        exact_match_score target (strip prediction)
        = exact_match_score target prediction).
Proof.
  split.
  - intros target prediction. unfold exact_match_score.
    rewrite strip_idempotent. reflexivity.
  - intros target prediction Hblank.
    assert (Hp : prediction <> "") by (intros ->; apply Hblank; reflexivity).
    unfold exact_match_score.
    rewrite (eqb_empty_false _ Hp), (eqb_empty_false _ Hblank).
    rewrite strip_idempotent. reflexivity.
Qed.

(** A padded target against the empty and against a blank prediction, and
    a padded prediction. *)
Lemma exact_match_score_ignores_padding_witness :
  exact_match_score (strip " Paris") "" = exact_match_score " Paris" ""
  /\ exact_match_score (strip "  ") "   " = exact_match_score "  " "   "
  /\ exact_match_score (strip " Paris") "  Paris "
     = exact_match_score " Paris" "  Paris "
  /\ strip "  Paris " <> ""
  /\ exact_match_score " Paris" (strip "  Paris ")
     = exact_match_score " Paris" "  Paris ".
Proof.
  pose proof exact_match_score_ignores_padding as [Htarget Hprediction].
  split; [apply Htarget |]. split; [apply Htarget |].
  split; [apply Htarget |]. split; [discriminate |].
  apply Hprediction. discriminate.
Defined.

(** X2: between two strings that are both not empty the order of the
    arguments of [exact_match_score] does not matter. *)
Theorem exact_match_score_symmetric (a b : string)
    (Ha : a <> "") (Hb : b <> "") :
  exact_match_score a b = exact_match_score b a.
Proof.
  unfold exact_match_score.
  rewrite (eqb_empty_false _ Ha), (eqb_empty_false _ Hb).
  rewrite (String.eqb_sym (strip b) (strip a)). reflexivity.
Qed.

Lemma exact_match_score_symmetric_witness :
  "cat" <> "" /\ " cat " <> ""
  /\ exact_match_score "cat" " cat " = exact_match_score " cat " "cat".
Proof.
  split; [discriminate |]. split; [discriminate |].
  apply (exact_match_score_symmetric "cat" " cat "); discriminate.
Defined.

(** X3: a string matches itself exactly when it is not empty, and
    [exact_match_score] takes no value other than 0 and 1. *)
Theorem exact_match_score_self (s target prediction : string) :
  (exact_match_score s s = 1 <-> s <> "")
  /\ (exact_match_score target prediction = 0
      \/ exact_match_score target prediction = 1).
Proof.
  unfold exact_match_score. split.
  - destruct (String.eqb s "") eqn:E.
    + apply eqb_empty in E. subst. split; [discriminate | intros H; now elim H].
    + rewrite String.eqb_refl. split; [| reflexivity].
      intros _ ->. discriminate E.
  - destruct (String.eqb prediction ""); [left; reflexivity |].
    destruct (String.eqb (strip prediction) (strip target)); auto.
Qed.

(** ** Quasi-exact match *)

Section QuasiExactMatchFacts.

Variable normalize_text : string -> string.

(** X4: whatever the normalization is, [quasi_exact_match_score] gives 0
    for the empty prediction, 1 for a string against itself exactly when
    the string is not empty, and the same value in both orders for two
    strings that are not empty. *)
Theorem quasi_exact_match_score_any_normalizer :
  (forall target, quasi_exact_match_score normalize_text target "" = 0)
  /\ (forall s, quasi_exact_match_score normalize_text s s = 1 <-> s <> "")
  /\ (forall a b, a <> "" -> b <> "" ->
        quasi_exact_match_score normalize_text a b
        = quasi_exact_match_score normalize_text b a).
Proof.
  unfold quasi_exact_match_score. repeat split.
  - destruct (String.eqb s "") eqn:E.
    + discriminate.
    + intros _ ->. discriminate E.
  - intros Hs. rewrite (eqb_empty_false _ Hs), String.eqb_refl. reflexivity.
  - intros a b Ha Hb. rewrite (eqb_empty_false _ Ha), (eqb_empty_false _ Hb).
    rewrite (String.eqb_sym (normalize_text b) (normalize_text a)).
    reflexivity.
Qed.

(** X5: if the normalization does not see white space at the two ends of
    a string, whatever matches exactly also matches quasi-exactly. *)
Theorem exact_match_implies_quasi_exact_match (target prediction : string)
    (Hnorm : forall s, normalize_text (strip s) = normalize_text s)
    (Hexact : exact_match_score target prediction = 1) :
  quasi_exact_match_score normalize_text target prediction = 1.
Proof.
  unfold exact_match_score in Hexact. unfold quasi_exact_match_score.
  destruct (String.eqb prediction ""); [discriminate Hexact |].
  destruct (String.eqb_spec (strip prediction) (strip target)) as [E | _];
    [| discriminate Hexact].
  rewrite <- (Hnorm target), <- (Hnorm prediction), E, String.eqb_refl.
  reflexivity.
Qed.

End QuasiExactMatchFacts.

Lemma exact_match_implies_quasi_exact_match_witness :
  (forall s, strip (strip s) = strip s)
  /\ exact_match_score "Paris " " Paris" = 1
  /\ quasi_exact_match_score strip "Paris " " Paris" = 1.
Proof.
  split; [exact strip_idempotent |]. split; [reflexivity |].
  apply (exact_match_implies_quasi_exact_match strip "Paris " " Paris"
           strip_idempotent).
  reflexivity.
Defined.

(** ** ROUGE and BLEU, continued *)

Section RougeBleuFacts.

Context {score : Type}.
Variable rouge_fmeasure : string -> bool -> string -> string -> score.
Variable tokenize : string -> list string.
Variable bleu : list (list string) -> list string -> weights -> score.

(** X6: [rouge_score] returns a value exactly when [score_type] is one of
    rouge1, rouge2, rougeL; it then has built one scorer, for that type
    alone and with stemming on, and asked it for one score, whose
    F-measure it returns. *)
Theorem rouge_score_returns_iff_listed (target prediction score_type : string) :
  ((exists v, returns (rouge_score rouge_fmeasure target prediction score_type) v)
   <-> In score_type rouge_types)
  /\ (In score_type rouge_types ->
      rouge_score rouge_fmeasure target prediction score_type
      = ([NewRougeScorer [score_type] true; RougeScore target prediction],
         Return (rouge_fmeasure score_type true target prediction))).
Proof.
  assert (Hok : In score_type rouge_types ->
      rouge_score rouge_fmeasure target prediction score_type
      = ([NewRougeScorer [score_type] true; RougeScore target prediction],
         Return (rouge_fmeasure score_type true target prediction))).
  { intros Hin. apply py_in_spec in Hin. unfold rouge_score.
    rewrite Hin. reflexivity. }
  split; [| exact Hok]. split.
  - intros [v Hv]. apply py_in_spec.
    destruct (py_in score_type rouge_types) eqn:E; [reflexivity |].
    unfold returns, rouge_score in Hv. rewrite E in Hv. discriminate Hv.
  - intros Hin. eexists. unfold returns. rewrite (Hok Hin). reflexivity.
Qed.

(** Every listed BLEU type is a key of the weight map. *)
Lemma bleu_weight_map_total (k : string) :
  py_in k bleu_types = true -> exists w, dict_get bleu_weight_map k = ret w.
Proof.
  intros Hin. apply py_in_spec in Hin. simpl in Hin.
  destruct Hin as [<- | [<- | [<- | [<- | []]]]]; eexists; reflexivity.
Qed.

(** X7: the keys of the weight map are the listed BLEU types, so the
    lookup [bleu_weight_map[bleu_type]] succeeds whenever the assertion
    has passed; and [sentence_bleu_score] gets as far as calling the
    backend, on the tokenized references and prediction, exactly when
    [bleu_type] is one of bleu1, ..., bleu4, whatever the references
    are. *)
Theorem sentence_bleu_score_reaches_backend (references : str_or_list)
    (prediction : string) (bleu_type : option string) :
  (forall k,
      In k bleu_types <-> exists w, dict_get bleu_weight_map k = ret w)
  /\ ((exists w,
         In (SentenceBleu (map tokenize (promote references))
               (tokenize prediction) w)
            (trace (sentence_bleu_score tokenize bleu references prediction
                      bleu_type)))
      <-> exists k, bleu_type = Some k /\ In k bleu_types).
Proof.
  split.
  - intros k. split.
    + intros Hin. apply bleu_weight_map_total, py_in_spec, Hin.
    + intros [w Hw]. revert Hw.
      unfold bleu_weight_map, bleu_types. cbn [dict_get In].
      destruct (String.eqb_spec "bleu1" k) as [E | _]; [auto |].
      destruct (String.eqb_spec "bleu2" k) as [E | _]; [auto |].
      destruct (String.eqb_spec "bleu3" k) as [E | _]; [auto |].
      destruct (String.eqb_spec "bleu4" k) as [E | _]; [auto 6 |].
      intros Hw. discriminate Hw.
  - destruct bleu_type as [k |].
    + destruct (py_in k bleu_types) eqn:Hin.
      * destruct (bleu_weight_map_total k Hin) as [w Hw].
        rewrite (sentence_bleu_score_listed tokenize bleu references
                   prediction k w Hin Hw).
        split.
        -- intros _. exists k. split; [reflexivity | apply py_in_spec, Hin].
        -- intros _. exists w. unfold trace. simpl fst.
           apply in_or_app. right. right. left. reflexivity.
      * assert (Hraise :
          sentence_bleu_score tokenize bleu references prediction (Some k)
          = ([], Raise (AssertionError
               "Invalud bleu_type. Options: 'bleu1', 'bleu2', 'bleu3', 'bleu4'"))).
        { unfold sentence_bleu_score.
          change (py_in_opt (Some k) bleu_types) with (py_in k bleu_types).
          rewrite Hin. reflexivity. }
        rewrite Hraise. split; [intros [w []] |].
        intros [k' [E Hk']]. injection E as <-.
        apply py_in_spec in Hk'. rewrite Hk' in Hin. discriminate Hin.
    + split; [intros [w []] |]. intros [k [E _]]. discriminate E.
Qed.

End RougeBleuFacts.

(** ** Answer relevancy, continued *)

Section AnswerRelevancyFacts.

Context {score : Type}.
Variable cross_encoder_score : option string -> string -> string -> score.
Context {embedding : Type}.
Variable encode : option string -> string -> embedding.
Variable dot : embedding -> embedding -> score.

(** X8: a [model_type] that is given and is neither ["self_encoder"] nor
    ["cross_encoder"] makes [answer_relevancy_score] raise
    [AssertionError] with the message about [model_type], before any
    backend event, whether the predictions are a string or a list. *)
Theorem answer_relevancy_score_unknown_model_type
    (predictions : str_or_list) (target model_type : string)
    (model_name : option string) (Hout : ~ In model_type model_types) :
  answer_relevancy_score cross_encoder_score encode dot
    predictions target (Some model_type) model_name
  = ([], Raise (AssertionError
           "model_type can be either 'self_encoder' or 'cross_encoder'")).
Proof.
  unfold answer_relevancy_score. rewrite (py_in_false _ _ Hout). reflexivity.
Qed.

(** X9: in self_encoder mode a prediction given as a string and as a
    one-element list are the same call, which returns the dot product of
    the two embeddings; in cross_encoder mode they are not, the string is
    scored and the list is refused. *)
Theorem answer_relevancy_score_lone_string (prediction target : string)
    (model_name : option string) :
  answer_relevancy_score cross_encoder_score encode dot
    (Str prediction) target (Some "self_encoder") model_name
  = answer_relevancy_score cross_encoder_score encode dot
      (Lst [prediction]) target (Some "self_encoder") model_name
  /\ returns (answer_relevancy_score cross_encoder_score encode dot
               (Str prediction) target (Some "self_encoder") model_name)
       (dot (encode model_name target) (encode model_name prediction))
  /\ returns (answer_relevancy_score cross_encoder_score encode dot
               (Str prediction) target (Some "cross_encoder") model_name)
       (cross_encoder_score model_name prediction target)
  /\ (forall v,
        ~ returns (answer_relevancy_score cross_encoder_score encode dot
                     (Lst [prediction]) target (Some "cross_encoder")
                     model_name) v).
Proof.
  repeat split. intros v Hv. discriminate Hv.
Qed.

End AnswerRelevancyFacts.

Lemma answer_relevancy_score_unknown_model_type_witness :
  ~ In "bi_encoder" (@model_types)
  /\ answer_relevancy_score (fun _ _ _ => one_half)
       (fun _ text => String.length text)
       (fun a b => if Nat.eqb a b then one_half else minus_one)
       (Lst ["yes"; "no"]) "is it?" (Some "bi_encoder") None
     = ([], Raise (AssertionError
           "model_type can be either 'self_encoder' or 'cross_encoder'")).
Proof.
  assert (Hout : ~ In "bi_encoder" model_types).
  { simpl. intros [E | [E | []]]; discriminate E. }
  split; [exact Hout |].
  apply (answer_relevancy_score_unknown_model_type (fun _ _ _ => one_half)
           (fun _ text => String.length text)
           (fun a b => if Nat.eqb a b then one_half else minus_one)
           (Lst ["yes"; "no"]) "is it?" "bi_encoder" None Hout).
Defined.

(** ** The running maximum, continued *)

Lemma Z_total : PyOrdTotal Z.
Proof.
  split. unfold py_gt, py_zero, PyOrd_Z. intros x y _ _.
  rewrite !Z.gtb_ltb, !Z.ltb_lt. lia.
Qed.

(** Two floats above zero are the same float or one is above the other. *)
Lemma float_total : PyOrdTotal spec_float.
Proof.
  split. unfold py_gt, py_zero, PyOrd_float, SFltb.
  intros [sx | sx | | sx mx ex] [sy | sy | | sy my ey]; simpl;
    try discriminate; try (destruct sx); try (destruct sy); simpl;
    try discriminate; intros _ _; auto.
  fold (Pos.compare mx my). fold (Pos.compare my mx).
  destruct (Z.compare_spec ex ey) as [-> | Hlt | Hgt].
  - rewrite Z.compare_refl.
    destruct (Pos.compare_spec mx my) as [-> | Hlt | Hgt].
    + right. left. reflexivity.
    + right. right. reflexivity.
    + left. apply Pos.compare_lt_iff in Hgt. rewrite Hgt. reflexivity.
  - right. right. reflexivity.
  - left. apply Z.compare_lt_iff in Hgt. rewrite Hgt. reflexivity.
Qed.

Section FloorFacts.

Context {A : Type} {ord : PyOrd A} {laws : PyOrdLaws A}.

Lemma py_gt_asym (x y : A) : py_gt x y = true -> py_gt y x = false.
Proof.
  intros Hxy. destruct (py_gt y x) eqn:Hyx; [| reflexivity].
  rewrite <- (py_gt_irrefl x). symmetry. eapply py_gt_trans; eassumption.
Qed.

(** A running maximum is the value it started from or is above it. *)
Lemma fold_max_reaches (l : list A) (acc : A) :
  fold_left py_max l acc = acc \/ py_gt (fold_left py_max l acc) acc = true.
Proof.
  revert acc. induction l as [| x l IH]; intros acc; simpl.
  - left. reflexivity.
  - destruct (py_max_cases acc x) as [[Hx E] | [_ E]]; rewrite E.
    + right. destruct (IH x) as [-> | Hgt]; [exact Hx |].
      eapply py_gt_trans; eassumption.
    + apply IH.
Qed.

Lemma fold_max_floor (l : list A) : floor_or_above (fold_left py_max l py_zero).
Proof. apply fold_max_reaches. Qed.

Lemma py_max_floor (a x : A) : floor_or_above a -> floor_or_above (py_max a x).
Proof.
  intros Ha. destruct (py_max_cases a x) as [[Hx ->] | [_ ->]]; [| exact Ha].
  right. destruct Ha as [-> | Ha]; [exact Hx |].
  eapply py_gt_trans; eassumption.
Qed.

(** Zero is not above a value of the floor or above it. *)
Lemma zero_not_above_floor (a : A) : floor_or_above a -> py_gt py_zero a = false.
Proof.
  intros [-> | Ha]; [apply py_gt_irrefl | apply py_gt_asym, Ha].
Qed.

(** A score that is not above zero leaves such a maximum as it is. *)
Lemma py_max_skips (a x : A) :
  floor_or_above a -> py_gt x py_zero = false -> py_max a x = a.
Proof.
  intros Ha Hx. unfold py_max. destruct (py_gt x a) eqn:Hxa; [| reflexivity].
  destruct Ha as [-> | Ha]; [congruence |].
  rewrite (py_gt_trans _ _ _ Hxa Ha) in Hx. discriminate Hx.
Qed.

Lemma py_max_zero_floor (a : A) : floor_or_above a -> py_max py_zero a = a.
Proof.
  intros [-> | Ha]; unfold py_max; [rewrite py_gt_irrefl | rewrite Ha];
    reflexivity.
Qed.

Context {total : PyOrdTotal A}.

(** How two scores above zero compare decides [py_max] of them. *)
Lemma py_max_above (x y : A) :
  py_gt x py_zero = true -> py_gt y py_zero = true ->
  (py_gt y x = true /\ py_max x y = y /\ py_max y x = y)
  \/ (x = y /\ py_max x y = x /\ py_max y x = x)
  \/ (py_gt x y = true /\ py_max x y = x /\ py_max y x = x).
Proof.
  intros Hx Hy. unfold py_max.
  destruct (py_gt_total x y Hx Hy) as [Hxy | [-> | Hyx]].
  - right. right. rewrite Hxy, (py_gt_asym _ _ Hxy). auto.
  - right. left. rewrite py_gt_irrefl. auto.
  - left. rewrite Hyx, (py_gt_asym _ _ Hyx). auto.
Qed.

(** Among scores above zero [py_max] is commutative ... *)
Lemma py_max_comm_above (x y : A) :
  py_gt x py_zero = true -> py_gt y py_zero = true ->
  py_max x y = py_max y x.
Proof.
  intros Hx Hy.
  destruct (py_max_above x y Hx Hy)
    as [(_ & -> & ->) | [(_ & -> & ->) | (_ & -> & ->)]]; reflexivity.
Qed.

(** No cycle of three in a strict order. *)
Lemma py_gt_no_cycle (x y z : A) :
  py_gt x y = true -> py_gt y z = true -> py_gt z x = true -> False.
Proof.
  intros Hxy Hyz Hzx.
  pose proof (py_gt_trans _ _ _ (py_gt_trans _ _ _ Hxy Hyz) Hzx) as Habs.
  rewrite py_gt_irrefl in Habs. discriminate Habs.
Qed.

(** ... and associative. *)
Lemma py_max_assoc_above (x y z : A) :
  py_gt x py_zero = true -> py_gt y py_zero = true ->
  py_gt z py_zero = true ->
  py_max (py_max x y) z = py_max x (py_max y z).
Proof.
  intros Hx Hy Hz.
  assert (Hxx : py_max x x = x) by (unfold py_max; now rewrite py_gt_irrefl).
  assert (Hzz : py_max z z = z) by (unfold py_max; now rewrite py_gt_irrefl).
  destruct (py_max_above x y Hx Hy)
    as [(Hxy & E1 & E1') | [(Hxy & E1 & E1') | (Hxy & E1 & E1')]];
    destruct (py_max_above y z Hy Hz)
      as [(Hyz & E2 & E2') | [(Hyz & E2 & E2') | (Hyz & E2 & E2')]];
    destruct (py_max_above x z Hx Hz)
      as [(Hxz & E3 & E3') | [(Hxz & E3 & E3') | (Hxz & E3 & E3')]];
    rewrite E1, E2, ?E1, ?E2, ?E3, ?Hxx, ?Hzz;
    try reflexivity; try congruence;
    try (exfalso; eapply py_gt_no_cycle; eassumption);
    try (subst; exfalso;
         match goal with
         | H1 : py_gt ?a ?b = true, H2 : py_gt ?b ?a = true |- _ =>
             rewrite (py_gt_asym _ _ H1) in H2; discriminate H2
         | H1 : py_gt ?a ?a = true |- _ =>
             rewrite py_gt_irrefl in H1; discriminate H1
         end).
Qed.

End FloorFacts.

(** ** Factual consistency, continued *)

Section FactualConsistencyFacts.

Context {score : Type} {score_ord : PyOrd score}
  {score_laws : PyOrdLaws score}.
Variable fc_predict : option string -> string -> string -> score.

(** X10: more contexts never lower the score: what
    [factual_consistency_score] returns for a list of contexts is not
    above what it returns for that list followed by further contexts. *)
Theorem factual_consistency_score_grows (l1 l2 : list string)
    (prediction : string) (model : option string) :
  exists r1 r2,
    returns (factual_consistency_score fc_predict (Lst l1) prediction model) r1
    /\ returns (factual_consistency_score fc_predict (Lst (l1 ++ l2))
                  prediction model) r2
    /\ py_gt r1 r2 = false.
Proof.
  unfold returns. rewrite !factual_consistency_score_run. simpl promote.
  do 2 eexists. split; [reflexivity |]. split; [reflexivity |].
  unfold context_scores. rewrite map_app, fold_left_app.
  apply fold_max_keeps_bound, py_gt_irrefl.
Qed.

Lemma py_max_floor_zero (a : score) : floor_or_above a -> py_max a py_zero = a.
Proof.
  intros Ha. unfold py_max. rewrite (zero_not_above_floor a Ha). reflexivity.
Qed.

Context {score_total : PyOrdTotal score}.

(** One step of the loop from [a], then the maximum with [f], is the
    maximum of [a] with one step from zero and then [f]. *)
Lemma py_max_step_split (a x f : score) :
  floor_or_above a -> floor_or_above f ->
  py_max (py_max a x) f = py_max a (py_max (py_max py_zero x) f).
Proof.
  intros Ha Hf. destruct (py_gt x py_zero) eqn:Hx.
  - assert (E : py_max py_zero x = x) by (unfold py_max; now rewrite Hx).
    rewrite E. destruct Ha as [-> | Ha].
    + rewrite E. symmetry. apply py_max_zero_floor, py_max_floor.
      right. exact Hx.
    + destruct Hf as [-> | Hf].
      * rewrite !py_max_floor_zero; [reflexivity | right; exact Hx |].
        apply py_max_floor. right. exact Ha.
      * apply py_max_assoc_above; assumption.
  - rewrite (py_max_skips a x Ha Hx).
    rewrite (py_max_skips py_zero x (or_introl eq_refl) Hx).
    rewrite (py_max_zero_floor f Hf). reflexivity.
Qed.

(** A loop that starts from [a] ends at the maximum of [a] and of where
    the loop from zero ends. *)
Lemma fold_max_split (l : list score) (a : score) :
  floor_or_above a ->
  fold_left py_max l a = py_max a (fold_left py_max l py_zero).
Proof.
  revert a. induction l as [| x l IH]; intros a Ha; simpl.
  - symmetry. apply py_max_floor_zero, Ha.
  - rewrite (IH (py_max a x)) by (apply py_max_floor, Ha).
    rewrite (IH (py_max py_zero x))
      by (apply py_max_floor; left; reflexivity).
    apply py_max_step_split; [exact Ha | apply fold_max_floor].
Qed.

(** Two steps of the loop can be taken in either order. *)
Lemma py_max_step_swap (a x y : score) :
  floor_or_above a -> py_max (py_max a x) y = py_max (py_max a y) x.
Proof.
  intros Ha. destruct (py_gt x py_zero) eqn:Hx.
  - destruct (py_gt y py_zero) eqn:Hy.
    + destruct Ha as [-> | Ha].
      * assert (Ex : py_max py_zero x = x) by (unfold py_max; now rewrite Hx).
        assert (Ey : py_max py_zero y = y) by (unfold py_max; now rewrite Hy).
        rewrite Ex, Ey. apply py_max_comm_above; assumption.
      * rewrite !py_max_assoc_above by assumption.
        f_equal. apply py_max_comm_above; assumption.
    + rewrite (py_max_skips (py_max a x) y (py_max_floor a x Ha) Hy).
      rewrite (py_max_skips a y Ha Hy). reflexivity.
  - rewrite (py_max_skips a x Ha Hx).
    rewrite (py_max_skips (py_max a y) x (py_max_floor a y Ha) Hx).
    reflexivity.
Qed.

Lemma fold_max_permutation (l1 l2 : list score) :
  Permutation l1 l2 ->
  forall a, floor_or_above a ->
  fold_left py_max l1 a = fold_left py_max l2 a.
Proof.
  induction 1 as [| x l1 l2 _ IH | x y l | l1 l2 l3 _ IH1 _ IH2];
    intros a Ha; simpl.
  - reflexivity.
  - apply IH, py_max_floor, Ha.
  - rewrite (py_max_step_swap a y x Ha). reflexivity.
  - rewrite (IH1 a Ha). apply IH2, Ha.
Qed.

(** X11: when any two scores above zero compare, scoring a list of
    contexts in two parts and taking [max] of the two results gives what
    scoring the whole list gives. *)
Theorem factual_consistency_score_split (l1 l2 : list string)
    (prediction : string) (model : option string) :
  result (factual_consistency_score fc_predict (Lst (l1 ++ l2))
            prediction model)
  = result (a <- factual_consistency_score fc_predict (Lst l1)
                   prediction model ;;
            b <- factual_consistency_score fc_predict (Lst l2)
                   prediction model ;;
            ret (py_max a b)).
Proof.
  rewrite !factual_consistency_score_run. unfold bind, ret, result. simpl.
  f_equal. unfold context_scores. rewrite map_app, fold_left_app.
  apply fold_max_split, fold_max_floor.
Qed.

(** X12: when any two scores above zero compare, the order in which the
    contexts are listed does not change what [factual_consistency_score]
    returns. *)
Theorem factual_consistency_score_any_order (l1 l2 : list string)
    (prediction : string) (model : option string)
    (Hperm : Permutation l1 l2) :
  result (factual_consistency_score fc_predict (Lst l1) prediction model)
  = result (factual_consistency_score fc_predict (Lst l2) prediction model).
Proof.
  rewrite !factual_consistency_score_run. unfold result. simpl.
  f_equal. apply fold_max_permutation; [| left; reflexivity].
  unfold context_scores. apply Permutation_map, Hperm.
Qed.

End FactualConsistencyFacts.

(** X13: with float scores [factual_consistency_score] never returns a
    NaN, even if the backend gives a NaN for some context or for all of
    them: what it returns is the zero it started from or a float above
    zero. *)
Theorem factual_consistency_score_never_nan
    (fc_predict : option string -> string -> string -> spec_float)
    (contexts : str_or_list) (prediction : string) (model : option string) :
  exists r,
    returns (factual_consistency_score fc_predict contexts prediction model) r
    /\ r <> S754_nan
    /\ (r = S754_zero false \/ SFltb (S754_zero false) r = true).
Proof.
  unfold returns.
  rewrite factual_consistency_score_run.
  eexists. split; [reflexivity |].
  pose proof (fold_max_floor (laws := float_laws)
                (context_scores fc_predict model prediction
                   (promote contexts))) as Hfloor.
  split; [| exact Hfloor].
  intros E. rewrite E in Hfloor. destruct Hfloor as [H | H]; discriminate H.
Qed.

(** ** BERTScore *)

Section BertScoreFacts.

Context {score : Type}.
Variable cuda_is_available : bool.
Variable bert_scorer_score :
  option string -> option string -> string -> list string -> bert_refs ->
  list score * list score * list score.

(** X14: with the empty list of references [bert_score] builds the
    scorer, on the device chosen at that moment, and then raises
    [IndexError] without asking the scorer for anything, whatever the
    predictions.  The scorer is asked for a score exactly when there is at
    least one reference, so a call that returns a value was given one. *)
Theorem bert_score_needs_a_reference (references predictions : str_or_list)
    (model lang : option string) :
  bert_score cuda_is_available bert_scorer_score (Lst []) predictions model lang
  = ([NewBERTScorer model lang true
        (if cuda_is_available then "cuda" else "cpu")],
     Raise IndexError)
  /\ ((exists refs,
         In (BERTScorerScore (promote predictions) refs)
            (fst (bert_score cuda_is_available bert_scorer_score references
                    predictions model lang)))
      <-> promote references <> [])
  /\ ((exists v,
         snd (bert_score cuda_is_available bert_scorer_score references
                predictions model lang) = Return v)
      -> promote references <> []).
Proof.
  split; [reflexivity |].
  unfold bert_score. destruct (promote references) as [| r rs]; simpl.
  - split.
    + split; [| intros Hne; now elim Hne].
      intros [refs [E | []]]. discriminate E.
    + intros [v Hv]. discriminate Hv.
  - destruct (bert_scorer_score _ _ _ _ _) as [[precision recall] f1].
    split; [| intros _; discriminate].
    split; [intros _; discriminate |].
    intros _. eexists. simpl. right. left. reflexivity.
Qed.

(** X15: with at least one reference, [bert_score] builds one scorer and
    asks it for one score of all the predictions.  The references go as
    they are when there are as many as predictions, and as one group of
    references otherwise; so the scorer gets as many reference entries as
    candidates exactly when the two lists have the same length or there
    is one prediction.  The three lists it answers come back under the
    keys bert-precision, bert-recall and bert-f1. *)
Theorem bert_score_reference_shape (references predictions : str_or_list)
    (model lang : option string) (Hne : promote references <> []) :
  exists refs,
    bert_score cuda_is_available bert_scorer_score references predictions
      model lang
    = ([NewBERTScorer model lang true
          (if cuda_is_available then "cuda" else "cpu");
        BERTScorerScore (promote predictions) refs],
       let '(precision, recall, f1) :=
         bert_scorer_score model lang
           (if cuda_is_available then "cuda" else "cpu")
           (promote predictions) refs in
       Return [ ("bert-precision", precision);
                ("bert-recall", recall);
                ("bert-f1", f1) ])
    /\ ((length (promote predictions) = length (promote references)
         /\ refs = FlatRefs (promote references))
        \/ (length (promote predictions) <> length (promote references)
            /\ refs = GroupedRefs [promote references]))
    /\ (length (promote predictions) = refs_count refs
        <-> (length (promote predictions) = length (promote references)
             \/ length (promote predictions) = 1%nat)).
Proof.
  unfold bert_score.
  destruct (promote references) as [| r rs] eqn:Hrefs; [now elim Hne |].
  destruct (Nat.eqb_spec (length (promote predictions)) (length (r :: rs)))
    as [Hlen | Hlen].
  - exists (FlatRefs (r :: rs)). split.
    + simpl. destruct (bert_scorer_score _ _ _ _ _) as [[precision recall] f1].
      reflexivity.
    + split; [left; split; [exact Hlen | reflexivity] |].
      simpl refs_count. split; [intros _; left; exact Hlen | intros _; exact Hlen].
  - exists (GroupedRefs [r :: rs]). split.
    + simpl. destruct (bert_scorer_score _ _ _ _ _) as [[precision recall] f1].
      reflexivity.
    + split; [right; split; [exact Hlen | reflexivity] |].
      simpl refs_count. split; [intros H1; right; exact H1 |].
      intros [H1 | H1]; [contradiction | exact H1].
Qed.

End BertScoreFacts.

(** ** The further statements at concrete inputs *)

(** One prediction against two references: the references form one
    group. *)
Lemma bert_score_reference_shape_witness :
  promote (Lst ["a cat"; "the cat"]) <> []
  /\ exists refs,
      bert_score false (fun _ _ _ cands _ =>
          (map (fun _ => one_half) cands, map (fun _ => one_half) cands,
           map (fun _ => one_half) cands))
        (Lst ["a cat"; "the cat"]) (Str "cat") None (Some "en")
      = ([NewBERTScorer None (Some "en") true "cpu";
          BERTScorerScore ["cat"] refs],
         Return [ ("bert-precision", [one_half]);
                  ("bert-recall", [one_half]);
                  ("bert-f1", [one_half]) ])
      /\ refs = GroupedRefs [["a cat"; "the cat"]].
Proof.
  assert (Hne : promote (Lst ["a cat"; "the cat"]) <> []) by discriminate.
  split; [exact Hne |].
  destruct (bert_score_reference_shape false
              (fun _ _ _ cands _ =>
                 (map (fun _ => one_half) cands,
                  map (fun _ => one_half) cands,
                  map (fun _ => one_half) cands))
              (Lst ["a cat"; "the cat"]) (Str "cat") None (Some "en") Hne)
    as [refs [Hrun [[[Hlen _] | [_ Hrefs]] _]]].
  - discriminate Hlen.
  - exists refs. split; [| exact Hrefs].
    rewrite Hrun, Hrefs. reflexivity.
Defined.

(** Two contexts, then a third: the score does not go down. *)
Lemma factual_consistency_score_grows_witness :
  PyOrdLaws spec_float
  /\ exists r1 r2,
      returns (factual_consistency_score
                 (fun _ c _ => if String.eqb c "a" then one_half else minus_one)
                 (Lst ["b"]) "p" None) r1
      /\ returns (factual_consistency_score
                    (fun _ c _ =>
                       if String.eqb c "a" then one_half else minus_one)
                    (Lst (["b"] ++ ["a"])) "p" None) r2
      /\ py_gt r1 r2 = false.
Proof.
  split; [exact float_laws |].
  apply (factual_consistency_score_grows (score_laws := float_laws)
           (fun _ c _ => if String.eqb c "a" then one_half else minus_one)
           ["b"] ["a"] "p" None).
Defined.

Lemma factual_consistency_score_split_witness :
  PyOrdLaws spec_float /\ PyOrdTotal spec_float
  /\ result (factual_consistency_score
               (fun _ c _ => if String.eqb c "a" then one_half else minus_one)
               (Lst (["b"; "a"] ++ ["c"])) "p" None)
     = result (a <- factual_consistency_score
                      (fun _ c _ =>
                         if String.eqb c "a" then one_half else minus_one)
                      (Lst ["b"; "a"]) "p" None ;;
               b <- factual_consistency_score
                      (fun _ c _ =>
                         if String.eqb c "a" then one_half else minus_one)
                      (Lst ["c"]) "p" None ;;
               ret (py_max a b)).
Proof.
  split; [exact float_laws |]. split; [exact float_total |].
  apply (factual_consistency_score_split (score_laws := float_laws)
           (score_total := float_total)
           (fun _ c _ => if String.eqb c "a" then one_half else minus_one)
           ["b"; "a"] ["c"] "p" None).
Defined.

Lemma factual_consistency_score_any_order_witness :
  PyOrdLaws spec_float /\ PyOrdTotal spec_float
  /\ Permutation ["a"; "b"] ["b"; "a"]
  /\ result (factual_consistency_score
               (fun _ c _ => if String.eqb c "a" then one_half else minus_one)
               (Lst ["a"; "b"]) "p" None)
     = result (factual_consistency_score
                 (fun _ c _ => if String.eqb c "a" then one_half else minus_one)
                 (Lst ["b"; "a"]) "p" None).
Proof.
  split; [exact float_laws |]. split; [exact float_total |].
  split; [apply perm_swap |].
  apply (factual_consistency_score_any_order (score_laws := float_laws)
           (score_total := float_total)
           (fun _ c _ => if String.eqb c "a" then one_half else minus_one)
           ["a"; "b"] ["b"; "a"] "p" None).
  apply perm_swap.
Defined.
